(** * The MUTE_ROOM action of plugin-bootstrap

    A shallow embedding of
    [packages/plugin-bootstrap/src/actions/muteRoom.ts]: the [validate]
    predicate, the [handler] and its inner function [_shouldMute], run in a
    small state-and-exception monad over the stores the runtime owns.

    Strings are sequences of code units; the embedding covers the code
    units below 256, one [ascii] per code unit, and [trim] and
    [toLowerCase] are ECMAScript's on that range. *)

From Stdlib Require Import ZArith Ascii String.
From stdpp Require Import gmap strings list fin_maps.

Open Scope string_scope.
Open Scope list_scope.

(* ===================================================================== *)
(** ** String operations used by the classifier                           *)
(* ===================================================================== *)

Module JsString.

(** WhiteSpace and LineTerminator code units below 256: TAB, LF, VT, FF,
    CR, SP and NBSP. *)
Definition isWhiteSpace (c : ascii) : bool :=
  let n := nat_of_ascii c in
  (Nat.leb 9 n && Nat.leb n 13) || Nat.eqb n 32 || Nat.eqb n 160.

(** Upper-case letters below 256: A..Z, and U+00C0..U+00DE without the
    multiplication sign U+00D7.  Each has its lower-case partner 32
    code units further. *)
Definition isUpper (c : ascii) : bool :=
  let n := nat_of_ascii c in
  (Nat.leb 65 n && Nat.leb n 90)
  || (Nat.leb 192 n && Nat.leb n 222 && negb (Nat.eqb n 215)).

Definition lowerChar (c : ascii) : ascii :=
  if isUpper c then ascii_of_nat (nat_of_ascii c + 32) else c.

Fixpoint toLowerCase (s : string) : string :=
  match s with
  | EmptyString => EmptyString
  | String c r => String (lowerChar c) (toLowerCase r)
  end.

Definition isEmpty (s : string) : bool :=
  match s with EmptyString => true | String _ _ => false end.

Fixpoint trimStart (s : string) : string :=
  match s with
  | EmptyString => EmptyString
  | String c r => if isWhiteSpace c then trimStart r else s
  end.

Fixpoint trimEnd (s : string) : string :=
  match s with
  | EmptyString => EmptyString
  | String c r =>
      let r' := trimEnd r in
      if isWhiteSpace c && isEmpty r' then EmptyString else String c r'
  end.

Definition trim (s : string) : string := trimEnd (trimStart s).

Fixpoint startsWith (needle s : string) : bool :=
  match needle, s with
  | EmptyString, _ => true
  | String _ _, EmptyString => false
  | String a n', String b s' => Ascii.eqb a b && startsWith n' s'
  end.

(** [s.includes(needle)]: [needle] occurs in [s] at some position. *)
Fixpoint includes (needle s : string) : bool :=
  startsWith needle s
  || match s with
     | EmptyString => false
     | String _ r => includes needle r
     end.

End JsString.

(* ===================================================================== *)
(** ** Data model                                                          *)
(* ===================================================================== *)

Definition UUID := string.

Record Room := mkRoom {
  room_id : UUID;
  room_name : string
}.

(** The content payload of a memory; a field the object literal leaves out
    is [None]. *)
Record Content := mkContent {
  text : option string;
  thought : option string;
  actions : option (list string);
  source : option string
}.

Record Metadata := mkMetadata {
  type : string
}.

Record Memory := mkMemory {
  id : option UUID;
  entityId : UUID;
  agentId : option UUID;
  roomId : UUID;
  content : Content;
  metadata : option Metadata;
  createdAt : option Z
}.

(** The conversation snapshot: [data.room] is the cached room, when the
    caller put one there. *)
Record StateData := mkStateData {
  room : option Room
}.

Record State := mkState {
  state_text : string;
  data : StateData
}.

Inductive ModelType := TEXT_SMALL | TEXT_LARGE.

(** What a call can throw. *)
Inductive Exn :=
| Error (message : string)
    (* [new Error(message)] *)
| TypeError_nullish (property : string)
    (* reading [property] of [null] or [undefined] *)
| Rejected (reason : string).
    (* whatever a collaborator's promise rejected with *)

Inductive LogLevel := LError | LWarn.

(** One entry per call the action makes on the runtime or the logger, in
    program order. *)
Inductive Event :=
| EGetParticipantUserState (roomId entityId : UUID)
| ESetParticipantUserState (roomId entityId : UUID) (state : option string)
| EUseModel (modelType : ModelType) (prompt : string) (stopSequences : list string)
| ECreateMemory (memory : Memory) (tableName : string)
| EGetRoom (roomId : UUID)
| ELog (level : LogLevel) (message : string).

(** The stores behind the runtime, and the log of calls made so far. *)
Record World := mkWorld {
  participants : gmap (UUID * UUID) string;
  memories : list (Memory * string);
  trace : list Event
}.

(** The agent's runtime as the action sees it.  The participant and memory
    stores live in [World]; the completion service and the room lookup are
    collaborators whose answers the action does not control: a rejection,
    or a value ([getRoom] may answer with no room). *)
Record IAgentRuntime := mkRuntime {
  rt_agentId : UUID;
  rt_useModel : ModelType -> string -> list string -> Exn + string;
  rt_getRoom : UUID -> Exn + option Room
}.

(* ===================================================================== *)
(** ** The monad of the action: state over [World], with exceptions        *)
(* ===================================================================== *)

Inductive Outcome (A : Type) :=
| Returned (a : A)
| Thrown (e : Exn).
Arguments Returned {A} a.
Arguments Thrown {A} e.

Definition M (A : Type) : Type := World -> Outcome A * World.

Definition ret {A} (a : A) : M A := fun w => (Returned a, w).

Definition throw {A} (e : Exn) : M A := fun w => (Thrown e, w).

Definition bind {A B} (m : M A) (k : A -> M B) : M B :=
  fun w =>
    match m w with
    | (Returned a, w') => k a w'
    | (Thrown e, w') => (Thrown e, w')
    end.

Notation "'let!' x ':=' m 'in' k" := (bind m (fun x => k))
  (at level 10, x name, m at level 100, k at level 200).
Notation "m '>>' k" := (bind m (fun _ => k))
  (at level 100, k at level 200, right associativity).

Definition emit (ev : Event) (w : World) : World :=
  mkWorld (participants w) (memories w) (trace w ++ [ev]).

Definition logger_error (msg : string) : M unit :=
  fun w => (Returned tt, emit (ELog LError msg) w).

Definition logger_warn (msg : string) : M unit :=
  fun w => (Returned tt, emit (ELog LWarn msg) w).

Definition getParticipantUserState (roomId entityId : UUID) : M (option string) :=
  fun w =>
    (Returned (participants w !! (roomId, entityId)),
     emit (EGetParticipantUserState roomId entityId) w).

Definition setParticipantUserState (roomId entityId : UUID) (st : option string)
  : M unit :=
  fun w =>
    let w' := emit (ESetParticipantUserState roomId entityId st) w in
    (Returned tt,
     mkWorld
       (match st with
        | Some v => <[(roomId, entityId) := v]> (participants w')
        | None => delete (roomId, entityId) (participants w')
        end)
       (memories w') (trace w')).

Definition createMemory (memory : Memory) (tableName : string) : M unit :=
  fun w =>
    let w' := emit (ECreateMemory memory tableName) w in
    (Returned tt,
     mkWorld (participants w') (memories w' ++ [(memory, tableName)]) (trace w')).

Definition lift {A} (r : Exn + A) : Outcome A :=
  match r with
  | inl e => Thrown e
  | inr a => Returned a
  end.

Definition useModel (runtime : IAgentRuntime) (modelType : ModelType)
    (prompt : string) (stopSequences : list string) : M string :=
  fun w =>
    (lift (rt_useModel runtime modelType prompt stopSequences),
     emit (EUseModel modelType prompt stopSequences) w).

Definition getRoom (runtime : IAgentRuntime) (roomId : UUID) : M (option Room) :=
  fun w => (lift (rt_getRoom runtime roomId), emit (EGetRoom roomId) w).

(* ===================================================================== *)
(** ** The action                                                          *)
(* ===================================================================== *)

Section MuteRoom.

(** Imported from the core package and from [uuid]: the footer appended
    to the template, the prompt composer, and the two values the
    invocation draws from its environment, the identifier [v4()] yields
    and the clock reading [Date.now()]. *)
Variable booleanFooter : string.
Variable composePromptFromState : State -> string -> string.
Variable v4 : UUID.
Variable Date_now : Z.

Definition asUUID (s : string) : UUID := s.

Definition shouldMuteTemplate : string :=
  "# Task: Decide if {{agentName}} should mute this room and stop responding unless explicitly mentioned.

{{recentMessages}}

Should {{agentName}} mute this room and stop responding unless explicitly mentioned?

Respond with YES if:
- The user is being aggressive, rude, or inappropriate
- The user has directly asked {{agentName}} to stop responding or be quiet
- {{agentName}}'s responses are not well-received or are annoying the user(s)

Otherwise, respond with NO.
" +:+ booleanFooter.

Definition validate (runtime : IAgentRuntime) (message : Memory) : M bool :=
  let roomId := roomId message in
  let! roomState := getParticipantUserState roomId (rt_agentId runtime) in
  ret (negb (bool_decide (roomState = Some "MUTED"))).

Definition cleanedResponse (response : string) : string :=
  JsString.toLowerCase (JsString.trim response).

(** The condition of the first [if] of [_shouldMute]. *)
Definition isAffirmative (cleanedResponse : string) : bool :=
  String.eqb cleanedResponse "true"
  || String.eqb cleanedResponse "yes"
  || String.eqb cleanedResponse "y"
  || JsString.includes "true" cleanedResponse
  || JsString.includes "yes" cleanedResponse.

(** The condition of the second [if] of [_shouldMute]. *)
Definition isNegative (cleanedResponse : string) : bool :=
  String.eqb cleanedResponse "false"
  || String.eqb cleanedResponse "no"
  || String.eqb cleanedResponse "n"
  || JsString.includes "false" cleanedResponse
  || JsString.includes "no" cleanedResponse.

Definition _shouldMute (runtime : IAgentRuntime) (message : Memory)
    (state : State) : M bool :=
  let shouldMutePrompt := composePromptFromState state shouldMuteTemplate in
  let! response := useModel runtime TEXT_SMALL shouldMutePrompt [] in
  let cleanedResponse := cleanedResponse response in
  if isAffirmative cleanedResponse then
    createMemory
      {| id := None;
         entityId := entityId message;
         agentId := agentId message;
         roomId := roomId message;
         content :=
           {| text := None;
              thought := Some "I will now mute this room";
              actions := Some ["MUTE_ROOM_STARTED"];
              source := source (content message) |};
         metadata := Some {| type := "MUTE_ROOM" |};
         createdAt := None |}
      "messages" >>
    ret true
  else
    (if isNegative cleanedResponse then
       createMemory
         {| id := None;
            entityId := entityId message;
            agentId := agentId message;
            roomId := roomId message;
            content :=
              {| text := None;
                 thought := Some "I decided to not mute this room";
                 actions := Some ["MUTE_ROOM_FAILED"];
                 source := source (content message) |};
            metadata := Some {| type := "MUTE_ROOM" |};
            createdAt := None |}
         "messages"
     else ret tt) >>
    logger_warn
      ("Unclear boolean response: " +:+ response +:+ ", defaulting to false") >>
    ret false.

(** [room.name], with [room] possibly nullish. *)
Definition name_of (room : option Room) : M string :=
  match room with
  | Some r => ret (room_name r)
  | None => throw (TypeError_nullish "name")
  end.

Definition handler (runtime : IAgentRuntime) (message : Memory)
    (state : option State) : M unit :=
  match state with
  | None =>
      logger_error "State is required for muting a room" >>
      throw (Error "State is required for muting a room")
  | Some state =>
      let! mute := _shouldMute runtime message state in
      (if mute then
         setParticipantUserState (roomId message) (rt_agentId runtime)
           (Some "MUTED")
       else ret tt) >>
      let! room :=
        match room (data state) with
        | Some r => ret (Some r)
        | None => getRoom runtime (roomId message)
        end in
      let! name := name_of room in
      createMemory
        {| id := None;
           entityId := entityId message;
           agentId := agentId message;
           roomId := roomId message;
           content :=
             {| text := None;
                thought := Some ("I muted the room " +:+ name);
                actions := Some ["MUTE_ROOM_START"];
                source := None |};
           metadata := None;
           createdAt := None |}
        "messages" >>
      let muteMessage :=
        {| id := Some (asUUID v4);
           entityId := rt_agentId runtime;
           agentId := Some (rt_agentId runtime);
           content :=
             {| text := Some "";
                thought := Some ("I muted the room " +:+ name);
                actions := Some ["MUTE_ROOM"];
                source := source (content message) |};
           roomId := roomId message;
           metadata := None;
           createdAt := Some Date_now |} in
      createMemory muteMessage "messages"
  end.

End MuteRoom.

(** The constant fields of [muteRoomAction]: its name, its similes, its
    description and the catalogue of example conversations. *)
Record ActionExample := mkExample {
  ex_name : string;
  ex_content : Content
}.

Module muteRoomAction.

Definition name : string := "MUTE_ROOM".

Definition similes : list string :=
  ["MUTE_CHAT"; "MUTE_CONVERSATION"; "MUTE_ROOM"; "MUTE_THREAD"; "MUTE_CHANNEL"].

Definition description : string :=
  "Mutes a room, ignoring all messages unless explicitly mentioned. Only do this if explicitly asked to, or if you're annoying people.".

(** [{ name, content: { text } }] *)
Definition says (who txt : string) : ActionExample :=
  {| ex_name := who;
     ex_content :=
       {| text := Some txt; thought := None; actions := None; source := None |} |}.

(** [{ name, content: { text, actions } }] *)
Definition acts (who txt : string) (tags : list string) : ActionExample :=
  {| ex_name := who;
     ex_content :=
       {| text := Some txt; thought := None; actions := Some tags;
          source := None |} |}.

Definition examples : list (list ActionExample) :=
  [ [ says "{{name1}}"
        "{{name3}}, please mute this channel. No need to respond here for now.";
      acts "{{name3}}" "Got it" ["MUTE_ROOM"];
      says "{{name2}}" "@{{name1}} we could really use your input on this" ];
    [ says "{{name1}}" "{{name3}}, please mute this channel for the time being";
      acts "{{name3}}" "Understood" ["MUTE_ROOM"];
      says "{{name2}}" "Hey what do you think about this new design";
      acts "{{name3}}" "" ["IGNORE"] ];
    [ says "{{name1}}" "{{name2}} plz mute this room";
      acts "{{name2}}" "np going silent" ["MUTE_ROOM"];
      says "{{name1}}" "whos going to the webxr meetup in an hour btw";
      acts "{{name2}}" "" ["IGNORE"] ];
    [ says "{{name1}}" "too many messages here {{name2}}";
      acts "{{name1}}" "my bad ill mute" ["MUTE_ROOM"] ];
    [ says "{{name1}}" "yo {{name2}} dont talk in here";
      acts "{{name2}}" "sry" ["MUTE_ROOM"] ] ].

End muteRoomAction.

(* ===================================================================== *)
(** ** The dispatcher's guard, and sample inputs                           *)
(* ===================================================================== *)

(** Modelled from the spec: the dispatcher that invokes the action is not
    part of this file's source; the workflow runs the Eligibility Guard
    ([validate]) and enters the [handler] only when the guard returns
    true, otherwise it performs no further action. *)
Definition workflow (booleanFooter : string)
    (composePromptFromState : State -> string -> string) (v4 : UUID)
    (Date_now : Z) (runtime : IAgentRuntime) (message : Memory)
    (state : option State) : M unit :=
  let! eligible := validate runtime message in
  if eligible then
    handler booleanFooter composePromptFromState v4 Date_now runtime message state
  else ret tt.

Module Sample.

Definition footer : string := "Respond with only a YES or a NO.".

Definition compose (st : State) (template : string) : string :=
  template +:+ state_text st.

Definition uuid : UUID := "00000000-0000-4000-8000-000000000001".

Definition now : Z := 1700000000000%Z.

Definition lobby : Room := mkRoom "room-R" "lobby".

Definition runtime (reply : Exn + string) (lookup : Exn + option Room)
  : IAgentRuntime :=
  mkRuntime "agent-G" (fun _ _ _ => reply) (fun _ => lookup).

Definition message : Memory :=
  {| id := Some "msg-1";
     entityId := "user-U";
     agentId := Some "agent-G";
     roomId := "room-R";
     content :=
       {| text := Some "please mute this channel";
          thought := None;
          actions := None;
          source := Some "discord" |};
     metadata := None;
     createdAt := Some 1699999999000%Z |}.

Definition state_cached : State := mkState "recent" (mkStateData (Some lobby)).

Definition state_uncached : State := mkState "recent" (mkStateData None).

Definition active : World := mkWorld ∅ [] [].

Definition muted : World :=
  mkWorld {[ ("room-R", "agent-G") := "MUTED" ]} [] [].

Definition run_handler (rt : IAgentRuntime) (st : option State) (w : World)
  : Outcome unit * World :=
  handler footer compose uuid now rt message st w.

End Sample.

(* ===================================================================== *)
(** ** Vocabulary of the statements                                        *)
(* ===================================================================== *)

(** [needle] occurs in [s] as a substring. *)
Definition contains (needle s : string) : Prop :=
  ∃ pre post : string, s = pre +:+ needle +:+ post.

(** The affirmative rule, in the words of the specification, on the
    normalized reply. *)
Definition affirmative_rule (c : string) : Prop :=
  c = "true" ∨ c = "yes" ∨ c = "y" ∨ contains "true" c ∨ contains "yes" c.

(** The negative rule, in the words of the specification. *)
Definition negative_rule (c : string) : Prop :=
  c = "false" ∨ c = "no" ∨ c = "n" ∨ contains "false" c ∨ contains "no" c.

(** The memory carries the action tag. *)
Definition has_action (tag : string) (entry : Memory * string) : bool :=
  match actions (content entry.1) with
  | Some tags => existsb (String.eqb tag) tags
  | None => false
  end.

Definition is_useModel (ev : Event) : bool :=
  match ev with EUseModel _ _ _ => true | _ => false end.

Definition is_createMemory (ev : Event) : bool :=
  match ev with ECreateMemory _ _ => true | _ => false end.

Definition is_setParticipantUserState (ev : Event) : bool :=
  match ev with ESetParticipantUserState _ _ _ => true | _ => false end.

Definition is_getRoom (ev : Event) : bool :=
  match ev with EGetRoom _ => true | _ => false end.

(** The two closing records of the handler, for a room called [name]: the
    closing audit memory, then the acknowledgment authored by the agent. *)
Definition closing_records (runtime : IAgentRuntime) (message : Memory)
    (name : string) (closing ack : Memory) : Prop :=
  actions (content closing) = Some ["MUTE_ROOM_START"]
  ∧ thought (content closing) = Some ("I muted the room " +:+ name)
  ∧ roomId closing = roomId message
  ∧ entityId ack = rt_agentId runtime
  ∧ agentId ack = Some (rt_agentId runtime)
  ∧ text (content ack) = Some ""
  ∧ thought (content ack) = Some ("I muted the room " +:+ name)
  ∧ actions (content ack) = Some ["MUTE_ROOM"]
  ∧ source (content ack) = source (content message)
  ∧ roomId ack = roomId message.

Definition is_getParticipantUserState (ev : Event) : bool :=
  match ev with EGetParticipantUserState _ _ => true | _ => false end.

Definition is_log (ev : Event) : bool :=
  match ev with ELog _ _ => true | _ => false end.

(** Every code unit of [s] is white space; the empty string is blank. *)
Fixpoint isBlank (s : string) : bool :=
  match s with
  | EmptyString => true
  | String c r => JsString.isWhiteSpace c && isBlank r
  end.

(** The example message carries the action tag. *)
Definition example_has_action (tag : string) (e : ActionExample) : bool :=
  match actions (ex_content e) with
  | Some tags => existsb (String.eqb tag) tags
  | None => false
  end.

(** The example message is a silent one: empty text, action IGNORE. *)
Definition example_is_silent (e : ActionExample) : bool :=
  bool_decide (text (ex_content e) = Some "")
  && bool_decide (actions (ex_content e) = Some ["IGNORE"]).

(** After the message that mutes, nobody mutes again, and the speaker who
    muted only appears with silent messages. *)
Definition quiet_after (who : string) (rest : list ActionExample) : bool :=
  forallb
    (λ e, negb (example_has_action muteRoomAction.name e)
          && (negb (String.eqb (ex_name e) who) || example_is_silent e))
    rest.

(** The conversation opens with a message that does not mute, holds one
    message tagged with the action's name, and is [quiet_after] it. *)
Fixpoint mutes_once (conversation : list ActionExample) : bool :=
  match conversation with
  | [] => false
  | e :: rest =>
      if example_has_action muteRoomAction.name e
      then quiet_after (ex_name e) rest
      else mutes_once rest
  end.

Definition example_well_formed (conversation : list ActionExample) : bool :=
  match conversation with
  | [] => false
  | e :: _ =>
      negb (example_has_action muteRoomAction.name e) && mutes_once conversation
  end.

(* ===================================================================== *)
(** ** Substrings                                                          *)
(* ===================================================================== *)

Lemma startsWith_prefix (needle s : string) :
  JsString.startsWith needle s = true ↔ ∃ post, s = needle +:+ post.
Proof.
  revert s. induction needle as [|a n IH]; intros s; simpl.
  - split; [intros _; by exists s | done].
  - destruct s as [|b s'].
    + split; [done | intros [post H]; discriminate].
    + rewrite andb_true_iff, Ascii.eqb_eq, IH. split.
      * intros [-> [post ->]]. by exists post.
      * intros [post H]. injection H as -> ->. eauto.
Qed.

Lemma includes_contains (needle s : string) :
  JsString.includes needle s = true ↔ contains needle s.
Proof.
  unfold contains. induction s as [|c r IH]; simpl.
  - rewrite orb_false_r, startsWith_prefix. split.
    + intros [post H]. by exists "", post.
    + intros [[|? ?] [post H]]; [eauto | discriminate].
  - rewrite orb_true_iff, startsWith_prefix, IH. split.
    + intros [[post H] | (pre & post & ->)].
      * by exists "", post.
      * by exists (String c pre), post.
    + intros [[|c' pre] [post H]].
      * left. by exists post.
      * right. injection H as -> ->. eauto.
Qed.

Lemma isAffirmative_rule (c : string) :
  isAffirmative c = true ↔ affirmative_rule c.
Proof.
  unfold isAffirmative, affirmative_rule.
  rewrite !orb_true_iff, !String.eqb_eq, !includes_contains. tauto.
Qed.

Lemma isNegative_rule (c : string) :
  isNegative c = true ↔ negative_rule c.
Proof.
  unfold isNegative, negative_rule.
  rewrite !orb_true_iff, !String.eqb_eq, !includes_contains. tauto.
Qed.

Lemma not_affirmative (c : string) :
  ¬ affirmative_rule c → isAffirmative c = false.
Proof.
  intros H. destruct (isAffirmative c) eqn:E; [|done].
  by apply isAffirmative_rule in E.
Qed.

Lemma not_negative (c : string) :
  ¬ negative_rule c → isNegative c = false.
Proof.
  intros H. destruct (isNegative c) eqn:E; [|done].
  by apply isNegative_rule in E.
Qed.

(* ===================================================================== *)
(** ** The action on the scenarios of the specification                    *)
(* ===================================================================== *)

Example cleanedResponse_YES : cleanedResponse "  YES " = "yes".
Proof. reflexivity. Qed.

Example cleanedResponse_N : cleanedResponse "N" = "n".
Proof. reflexivity. Qed.

Example includes_middle : JsString.includes "no" "i do not know" = true.
Proof. reflexivity. Qed.

Example includes_absent : JsString.includes "yes" "maybe?" = false.
Proof. reflexivity. Qed.

(** The action tags of the memories, in the order they were appended. *)
Definition tags_written (w : World) : list (option (list string)) :=
  map (λ entry, actions (content entry.1)) (memories w).

Example scenario_A_tags :
  tags_written
    (Sample.run_handler
       (Sample.runtime (inr "YES I think we should mute")
          (inr (Some Sample.lobby)))
       (Some Sample.state_uncached) Sample.active).2
  = [Some ["MUTE_ROOM_STARTED"]; Some ["MUTE_ROOM_START"]; Some ["MUTE_ROOM"]].
Proof. reflexivity. Qed.

Example scenario_B_tags :
  tags_written
    (Sample.run_handler
       (Sample.runtime (inr "no, let's keep talking")
          (inr (Some Sample.lobby)))
       (Some Sample.state_uncached) Sample.active).2
  = [Some ["MUTE_ROOM_FAILED"]; Some ["MUTE_ROOM_START"]; Some ["MUTE_ROOM"]].
Proof. reflexivity. Qed.

Example scenario_maybe_tags :
  tags_written
    (Sample.run_handler
       (Sample.runtime (inr "maybe?") (inr (Some Sample.lobby)))
       (Some Sample.state_cached) Sample.active).2
  = [Some ["MUTE_ROOM_START"]; Some ["MUTE_ROOM"]].
Proof. reflexivity. Qed.

(* ===================================================================== *)
(** ** Properties of the action                                            *)
(* ===================================================================== *)

Arguments isAffirmative : simpl never.
Arguments isNegative : simpl never.
Arguments cleanedResponse : simpl never.
Arguments shouldMuteTemplate : simpl never.

(** Unfold one run of the action down to the stores. *)
Ltac run_action :=
  unfold workflow, validate, handler, _shouldMute, name_of, bind, useModel,
    getRoom, createMemory, setParticipantUserState, getParticipantUserState,
    logger_warn, logger_error, ret, throw, emit, lift; simpl.

Ltac list_eq := simpl; rewrite <- ?app_assoc; simpl; reflexivity.

Section Properties.

Variable booleanFooter : string.
Variable composePromptFromState : State -> string -> string.
Variable v4 : UUID.
Variable Date_now : Z.

Local Abbreviation prompt_of st :=
  (composePromptFromState st (shouldMuteTemplate booleanFooter)).
Local Abbreviation run_shouldMute :=
  (_shouldMute booleanFooter composePromptFromState).
Local Abbreviation run_handler :=
  (handler booleanFooter composePromptFromState v4 Date_now).
Local Abbreviation run_workflow :=
  (workflow booleanFooter composePromptFromState v4 Date_now).

(** C1. When the normalized reply of the completion service satisfies
    the affirmative rule, the handler appends one audit memory tagged
    MUTE_ROOM_STARTED with thought "I will now mute this room" to the
    "messages" channel, and no other memory with that tag; right after
    it, it sets the participant state of (message.roomId, agentId) to
    MUTED, which is the state the invocation leaves. *)
Theorem C1_affirmative_reply_mutes (runtime : IAgentRuntime) (message : Memory)
    (st : State) (w : World) (response : string) :
  rt_useModel runtime TEXT_SMALL (prompt_of st) [] = inr response →
  affirmative_rule (cleanedResponse response) →
  let w' := (run_handler runtime message (Some st) w).2 in
  ∃ (m : Memory) (later_events : list Event)
    (later_memories : list (Memory * string)),
    actions (content m) = Some ["MUTE_ROOM_STARTED"]
    ∧ thought (content m) = Some "I will now mute this room"
    ∧ trace w' =
        trace w
        ++ [EUseModel TEXT_SMALL (prompt_of st) [];
            ECreateMemory m "messages";
            ESetParticipantUserState (roomId message) (rt_agentId runtime)
              (Some "MUTED")]
        ++ later_events
    ∧ List.filter is_setParticipantUserState later_events = []
    ∧ memories w' = memories w ++ (m, "messages") :: later_memories
    ∧ List.filter (has_action "MUTE_ROOM_STARTED") later_memories = []
    ∧ participants w' =
        <[(roomId message, rt_agentId runtime) := "MUTED"]> (participants w).
Proof.
  intros Hreply Haff. apply isAffirmative_rule in Haff.
  run_action. rewrite Hreply; simpl. rewrite Haff; simpl.
  destruct (room (data st)) as [rm|]; simpl;
    [|destruct (rt_getRoom runtime (roomId message)) as [e|[rm|]]; simpl];
    eexists _, _, _; repeat split; try list_eq.
  all: reflexivity.
Qed.

(** C2. When the normalized reply does not satisfy the affirmative rule and
    satisfies the negative rule, the outcome is NO_MUTE: [_shouldMute]
    returns false, the handler appends an audit memory tagged
    MUTE_ROOM_FAILED with thought "I decided to not mute this room" to the
    "messages" channel, and setParticipantUserState is not called, so the
    participant states are as before. *)
Theorem C2_negative_reply_does_not_mute (runtime : IAgentRuntime)
    (message : Memory) (st : State) (w : World) (response : string) :
  rt_useModel runtime TEXT_SMALL (prompt_of st) [] = inr response →
  ¬ affirmative_rule (cleanedResponse response) →
  negative_rule (cleanedResponse response) →
  (run_shouldMute runtime message st w).1 = Returned false
  ∧ let w' := (run_handler runtime message (Some st) w).2 in
    ∃ (m : Memory) (later_events : list Event)
      (later_memories : list (Memory * string)),
      actions (content m) = Some ["MUTE_ROOM_FAILED"]
      ∧ thought (content m) = Some "I decided to not mute this room"
      ∧ trace w' =
          trace w
          ++ [EUseModel TEXT_SMALL (prompt_of st) []; ECreateMemory m "messages"]
          ++ later_events
      ∧ List.filter is_setParticipantUserState later_events = []
      ∧ memories w' = memories w ++ (m, "messages") :: later_memories
      ∧ participants w' = participants w.
Proof.
  intros Hreply Haff Hneg.
  apply not_affirmative in Haff. apply isNegative_rule in Hneg.
  run_action. rewrite Hreply; simpl. rewrite Haff, Hneg; simpl.
  split; [reflexivity|].
  destruct (room (data st)) as [rm|]; simpl;
    [|destruct (rt_getRoom runtime (roomId message)) as [e|[rm|]]; simpl];
    eexists _, _, _; repeat split; try list_eq.
  all: reflexivity.
Qed.

(** C3. When a state snapshot is supplied, the completion call succeeds and
    the room resolves (from the snapshot, or else from the lookup), the
    handler returns normally and its last two writes are the closing audit
    memory, tagged MUTE_ROOM_START with thought "I muted the room {name}",
    and then the acknowledgment authored by the agent, with empty text, the
    same thought, tag MUTE_ROOM and the source of the triggering message.
    This holds for every reply, whatever the classification stage decided
    and wrote before. *)
Theorem C3_closing_records_whatever_the_outcome (runtime : IAgentRuntime)
    (message : Memory) (st : State) (w : World) (response : string)
    (rm : Room) :
  rt_useModel runtime TEXT_SMALL (prompt_of st) [] = inr response →
  room (data st) = Some rm
  ∨ (room (data st) = None
     ∧ rt_getRoom runtime (roomId message) = inr (Some rm)) →
  let r := run_handler runtime message (Some st) w in
  let decided := (run_shouldMute runtime message st w).2 in
  r.1 = Returned tt
  ∧ ∃ (closing ack : Memory) (earlier_events : list Event),
      closing_records runtime message (room_name rm) closing ack
      ∧ memories r.2 =
          memories decided ++ [(closing, "messages"); (ack, "messages")]
      ∧ trace r.2 =
          earlier_events
          ++ [ECreateMemory closing "messages"; ECreateMemory ack "messages"].
Proof.
  intros Hreply Hroom. run_action. rewrite Hreply; simpl.
  destruct (isAffirmative (cleanedResponse response)); simpl;
    [|destruct (isNegative (cleanedResponse response)); simpl];
    (destruct Hroom as [-> | [-> ->]]; simpl;
     (split; [reflexivity|]);
     eexists _, _, _;
     (split; [|split; rewrite <- ?(app_assoc _ [_] [_]); reflexivity]);
     unfold closing_records; repeat split).
Qed.

(** C4. When the participant state of the agent in the message's room is
    MUTED, [validate] returns false, and the workflow, which enters the
    handler only when [validate] returns true, makes the one read of the
    guard and nothing else: no call of the completion service, no write of
    a participant state, no memory. *)
Theorem C4_muted_room_short_circuits (runtime : IAgentRuntime)
    (message : Memory) (state : option State) (w : World) :
  participants w !! (roomId message, rt_agentId runtime) = Some "MUTED" →
  (validate runtime message w).1 = Returned false
  ∧ let r := run_workflow runtime message state w in
    r.1 = Returned tt
    ∧ participants r.2 = participants w
    ∧ memories r.2 = memories w
    ∧ trace r.2 =
        trace w
        ++ [EGetParticipantUserState (roomId message) (rt_agentId runtime)].
Proof.
  intros Hmuted. run_action. rewrite Hmuted; simpl. repeat split.
Qed.

(** C5. When the normalized reply contains an affirmative substring ("yes"
    or "true") and also a negative one ("no" or "false"), the affirmative
    check wins: [_shouldMute] returns true, the MUTE_ROOM_STARTED memory is
    appended, and the invocation appends no memory tagged
    MUTE_ROOM_FAILED. *)
Theorem C5_affirmative_checked_first (runtime : IAgentRuntime)
    (message : Memory) (st : State) (w : World) (response : string) :
  rt_useModel runtime TEXT_SMALL (prompt_of st) [] = inr response →
  contains "yes" (cleanedResponse response)
  ∨ contains "true" (cleanedResponse response) →
  contains "no" (cleanedResponse response)
  ∨ contains "false" (cleanedResponse response) →
  (run_shouldMute runtime message st w).1 = Returned true
  ∧ let w' := (run_handler runtime message (Some st) w).2 in
    ∃ (m : Memory) (later_memories : list (Memory * string)),
      actions (content m) = Some ["MUTE_ROOM_STARTED"]
      ∧ memories w' = memories w ++ (m, "messages") :: later_memories
      ∧ List.filter (has_action "MUTE_ROOM_FAILED")
          ((m, "messages") :: later_memories) = [].
Proof.
  intros Hreply Hyes _.
  assert (Haff : isAffirmative (cleanedResponse response) = true).
  { apply isAffirmative_rule. unfold affirmative_rule. tauto. }
  run_action. rewrite Hreply; simpl. rewrite Haff; simpl.
  split; [reflexivity|].
  destruct (room (data st)) as [rm|]; simpl;
    [|destruct (rt_getRoom runtime (roomId message)) as [e|[rm|]]; simpl];
    eexists _, _; repeat split; try list_eq.
  all: reflexivity.
Qed.

(** C6. When the normalized reply satisfies neither rule, the outcome is
    UNCLEAR and counts as NO_MUTE: [_shouldMute] returns false without
    raising, appends no memory and only logs the warning after the
    completion call; the handler then never calls
    setParticipantUserState, leaves the participant states as they were,
    and appends no memory tagged MUTE_ROOM_STARTED or MUTE_ROOM_FAILED. *)
Theorem C6_unclear_reply_counts_as_no_mute (runtime : IAgentRuntime)
    (message : Memory) (st : State) (w : World) (response : string) :
  rt_useModel runtime TEXT_SMALL (prompt_of st) [] = inr response →
  ¬ affirmative_rule (cleanedResponse response) →
  ¬ negative_rule (cleanedResponse response) →
  let d := run_shouldMute runtime message st w in
  let r := run_handler runtime message (Some st) w in
  d.1 = Returned false
  ∧ memories d.2 = memories w
  ∧ participants d.2 = participants w
  ∧ trace d.2 =
      trace w
      ++ [EUseModel TEXT_SMALL (prompt_of st) [];
          ELog LWarn
            ("Unclear boolean response: " +:+ response
             +:+ ", defaulting to false")]
  ∧ participants r.2 = participants w
  ∧ ∃ (later_events : list Event) (later_memories : list (Memory * string)),
      trace r.2 = trace d.2 ++ later_events
      ∧ List.filter is_setParticipantUserState later_events = []
      ∧ memories r.2 = memories w ++ later_memories
      ∧ List.filter (has_action "MUTE_ROOM_STARTED") later_memories = []
      ∧ List.filter (has_action "MUTE_ROOM_FAILED") later_memories = [].
Proof.
  intros Hreply Haff Hneg.
  apply not_affirmative in Haff. apply not_negative in Hneg.
  run_action. rewrite Hreply; simpl. rewrite Haff, Hneg; simpl.
  do 4 (split; [list_eq|]).
  destruct (room (data st)) as [rm|]; simpl;
    [|destruct (rt_getRoom runtime (roomId message)) as [e|[rm|]]; simpl];
    (split; [reflexivity|]); eexists _, _; repeat split; try list_eq.
  all: try (rewrite app_nil_r; reflexivity).
  all: reflexivity.
Qed.

(** C7. Without a state snapshot the handler logs the error and throws
    "State is required for muting a room" at once: no call of the
    completion service or of any other collaborator, no memory appended,
    no participant state written. *)
Theorem C7_state_is_required (runtime : IAgentRuntime) (message : Memory)
    (w : World) :
  let r := run_handler runtime message None w in
  r.1 = Thrown (Error "State is required for muting a room")
  ∧ memories r.2 = memories w
  ∧ participants r.2 = participants w
  ∧ trace r.2 = trace w ++ [ELog LError "State is required for muting a room"].
Proof. run_action. repeat split. Qed.

(** C8. When the completion call rejects with [e], [_shouldMute] and the
    handler throw that same [e]; at that point the invocation has made the
    completion call and nothing else: no memory appended, no participant
    state written. *)
Theorem C8_completion_failure_propagates (runtime : IAgentRuntime)
    (message : Memory) (st : State) (w : World) (e : Exn) :
  rt_useModel runtime TEXT_SMALL (prompt_of st) [] = inl e →
  let d := run_shouldMute runtime message st w in
  let r := run_handler runtime message (Some st) w in
  d.1 = Thrown e
  ∧ r.1 = Thrown e
  ∧ memories r.2 = memories w
  ∧ participants r.2 = participants w
  ∧ trace r.2 = trace w ++ [EUseModel TEXT_SMALL (prompt_of st) []].
Proof.
  intros Hreply. run_action. rewrite Hreply; simpl. repeat split.
Qed.

(** C9. After a successful completion call, the room of the closing
    records is the cached [state.data.room] when there is one, and then
    getRoom is not called; otherwise getRoom(message.roomId) is called
    once and its room is used.  When that lookup rejects, its error
    propagates; when it answers with no room, reading the name throws; in
    both cases no memory is appended after the classification stage,
    neither the closing audit memory nor the acknowledgment. *)
Theorem C9_room_resolution (runtime : IAgentRuntime) (message : Memory)
    (st : State) (w : World) (response : string) :
  rt_useModel runtime TEXT_SMALL (prompt_of st) [] = inr response →
  let r := run_handler runtime message (Some st) w in
  let decided := (run_shouldMute runtime message st w).2 in
  let recorded (rm : Room) :=
    r.1 = Returned tt
    ∧ ∃ closing ack : Memory,
        closing_records runtime message (room_name rm) closing ack
        ∧ memories r.2 =
            memories decided ++ [(closing, "messages"); (ack, "messages")] in
  ∃ later_events : list Event,
    trace r.2 = trace decided ++ later_events
    ∧ match room (data st) with
      | Some rm =>
          List.filter is_getRoom later_events = [] ∧ recorded rm
      | None =>
          List.filter is_getRoom later_events = [EGetRoom (roomId message)]
          ∧ match rt_getRoom runtime (roomId message) with
            | inr (Some rm) => recorded rm
            | inr None =>
                r.1 = Thrown (TypeError_nullish "name")
                ∧ memories r.2 = memories decided
            | inl e =>
                r.1 = Thrown e ∧ memories r.2 = memories decided
            end
      end.
Proof.
  intros Hreply. run_action. rewrite Hreply; simpl.
  destruct (isAffirmative (cleanedResponse response)); simpl;
    [|destruct (isNegative (cleanedResponse response)); simpl];
    (destruct (room (data st)) as [rm|]; simpl;
     [|destruct (rt_getRoom runtime (roomId message)) as [e|[rm|]]; simpl];
     eexists; (split; [list_eq|]); repeat split;
     try (eexists _, _; split;
          [|rewrite <- ?(app_assoc _ [_] [_]); reflexivity];
          unfold closing_records; repeat split)).
Qed.

(** C10. The negative branch does not return: for every reply that is not
    affirmative, [_shouldMute] goes on to the final default, so it logs
    the "Unclear boolean response" warning last and returns false; an
    explicit negative differs only by the MUTE_ROOM_FAILED memory created
    before the warning. *)
Theorem C10_negative_branch_falls_through (runtime : IAgentRuntime)
    (message : Memory) (st : State) (w : World) (response : string) :
  rt_useModel runtime TEXT_SMALL (prompt_of st) [] = inr response →
  ¬ affirmative_rule (cleanedResponse response) →
  let d := run_shouldMute runtime message st w in
  d.1 = Returned false
  ∧ ∃ audit : list (Memory * string),
      memories d.2 = memories w ++ audit
      ∧ List.filter (has_action "MUTE_ROOM_FAILED") audit = audit
      ∧ length audit = (if isNegative (cleanedResponse response) then 1 else 0)
      ∧ trace d.2 =
          trace w
          ++ [EUseModel TEXT_SMALL (prompt_of st) []]
          ++ map (λ entry, ECreateMemory entry.1 entry.2) audit
          ++ [ELog LWarn
                ("Unclear boolean response: " +:+ response
                 +:+ ", defaulting to false")].
Proof.
  intros Hreply Haff. apply not_affirmative in Haff.
  run_action. rewrite Hreply; simpl. rewrite Haff; simpl.
  destruct (isNegative (cleanedResponse response)); simpl;
    (split; [reflexivity|]); eexists;
    (split; [first [reflexivity | rewrite app_nil_r; reflexivity]|]);
    repeat split; list_eq.
Qed.

End Properties.

(* ===================================================================== *)
(** ** The properties at sample invocations                                *)
(* ===================================================================== *)

(** Scenario A: the room is active, the reply is "YES I think we should
    mute", and the room comes from the lookup. *)
Lemma C1_scenario_A :
  let rt := Sample.runtime (inr "YES I think we should mute")
              (inr (Some Sample.lobby)) in
  affirmative_rule (cleanedResponse "YES I think we should mute")
  ∧ participants
      (Sample.run_handler rt (Some Sample.state_uncached) Sample.active).2
    !! ("room-R", "agent-G") = Some "MUTED".
Proof.
  intros rt.
  assert (Haff : affirmative_rule (cleanedResponse "YES I think we should mute")).
  { do 4 right. exists "", " i think we should mute". reflexivity. }
  split; [exact Haff|].
  destruct (C1_affirmative_reply_mutes Sample.footer Sample.compose
              Sample.uuid Sample.now rt Sample.message Sample.state_uncached
              Sample.active "YES I think we should mute" eq_refl Haff)
    as (m & evs & mems & _ & _ & _ & _ & _ & _ & Hp).
  unfold Sample.run_handler. rewrite Hp. apply lookup_insert_eq.
Defined.

(** Scenario B: the reply is "no, let's keep talking". *)
Lemma C2_scenario_B :
  let rt := Sample.runtime (inr "no, let's keep talking")
              (inr (Some Sample.lobby)) in
  negative_rule (cleanedResponse "no, let's keep talking")
  ∧ (_shouldMute Sample.footer Sample.compose rt Sample.message
       Sample.state_cached Sample.active).1 = Returned false
  ∧ participants
      (Sample.run_handler rt (Some Sample.state_cached) Sample.active).2
    = participants Sample.active.
Proof.
  intros rt.
  assert (Hneg : negative_rule (cleanedResponse "no, let's keep talking")).
  { do 4 right. exists "", ", let's keep talking". reflexivity. }
  assert (Haff : ¬ affirmative_rule (cleanedResponse "no, let's keep talking")).
  { intros H. apply isAffirmative_rule in H. vm_compute in H. discriminate. }
  split; [exact Hneg|].
  destruct (C2_negative_reply_does_not_mute Sample.footer Sample.compose
              Sample.uuid Sample.now rt Sample.message Sample.state_cached
              Sample.active "no, let's keep talking" eq_refl Haff Hneg)
    as (Hout & m & evs & mems & _ & _ & _ & _ & _ & Hp).
  split; [exact Hout | exact Hp].
Defined.

(** The closing records after an unclear reply, with the room from the
    lookup. *)
Lemma C3_closing_after_unclear_reply :
  let rt := Sample.runtime (inr "maybe?") (inr (Some Sample.lobby)) in
  (Sample.run_handler rt (Some Sample.state_uncached) Sample.active).1
  = Returned tt.
Proof.
  intros rt.
  destruct (C3_closing_records_whatever_the_outcome Sample.footer
              Sample.compose Sample.uuid Sample.now rt Sample.message
              Sample.state_uncached Sample.active "maybe?" Sample.lobby
              eq_refl (or_intror (conj eq_refl eq_refl)))
    as (Hout & _).
  exact Hout.
Defined.

(** Scenario C: the guard on a muted room. *)
Lemma C4_scenario_C :
  let rt := Sample.runtime (inr "yes") (inr (Some Sample.lobby)) in
  (validate rt Sample.message Sample.muted).1 = Returned false
  ∧ trace
      (workflow Sample.footer Sample.compose Sample.uuid Sample.now rt
         Sample.message (Some Sample.state_cached) Sample.muted).2
    = [EGetParticipantUserState "room-R" "agent-G"].
Proof.
  intros rt.
  destruct (C4_muted_room_short_circuits Sample.footer Sample.compose
              Sample.uuid Sample.now rt Sample.message
              (Some Sample.state_cached) Sample.muted eq_refl)
    as (Hv & _ & _ & _ & Ht).
  split; [exact Hv | exact Ht].
Defined.

(** A reply with both "yes" and "no" in it. *)
Lemma C5_yes_and_no :
  let rt := Sample.runtime (inr "Yes? No.") (inr (Some Sample.lobby)) in
  (_shouldMute Sample.footer Sample.compose rt Sample.message
     Sample.state_cached Sample.active).1 = Returned true.
Proof.
  intros rt.
  destruct (C5_affirmative_checked_first Sample.footer Sample.compose
              Sample.uuid Sample.now rt Sample.message Sample.state_cached
              Sample.active "Yes? No." eq_refl
              (or_introl (ex_intro _ "" (ex_intro _ "? no." eq_refl)))
              (or_introl (ex_intro _ "yes? " (ex_intro _ "." eq_refl))))
    as (Hout & _).
  exact Hout.
Defined.

(** The reply "maybe?". *)
Lemma C6_maybe :
  let rt := Sample.runtime (inr "maybe?") (inr (Some Sample.lobby)) in
  participants
    (Sample.run_handler rt (Some Sample.state_cached) Sample.active).2
  = participants Sample.active.
Proof.
  intros rt.
  assert (Haff : ¬ affirmative_rule (cleanedResponse "maybe?")).
  { intros H. apply isAffirmative_rule in H. vm_compute in H. discriminate. }
  assert (Hneg : ¬ negative_rule (cleanedResponse "maybe?")).
  { intros H. apply isNegative_rule in H. vm_compute in H. discriminate. }
  destruct (C6_unclear_reply_counts_as_no_mute Sample.footer Sample.compose
              Sample.uuid Sample.now rt Sample.message Sample.state_cached
              Sample.active "maybe?" eq_refl Haff Hneg)
    as (_ & _ & _ & _ & Hp & _).
  exact Hp.
Defined.

(** A completion service that rejects. *)
Lemma C8_service_down :
  let rt := Sample.runtime (inl (Rejected "503")) (inr (Some Sample.lobby)) in
  (Sample.run_handler rt (Some Sample.state_cached) Sample.active).1
  = Thrown (Rejected "503").
Proof.
  intros rt.
  destruct (C8_completion_failure_propagates Sample.footer Sample.compose
              Sample.uuid Sample.now rt Sample.message Sample.state_cached
              Sample.active (Rejected "503") eq_refl)
    as (_ & Hout & _).
  exact Hout.
Defined.

(** A lookup that answers with no room, after the reply "yes". *)
Lemma C9_unknown_room :
  let rt := Sample.runtime (inr "yes") (inr None) in
  let r := Sample.run_handler rt (Some Sample.state_uncached) Sample.active in
  r.1 = Thrown (TypeError_nullish "name")
  ∧ memories r.2
    = memories
        (_shouldMute Sample.footer Sample.compose rt Sample.message
           Sample.state_uncached Sample.active).2.
Proof.
  intros rt r.
  destruct (C9_room_resolution Sample.footer Sample.compose Sample.uuid
              Sample.now rt Sample.message Sample.state_uncached
              Sample.active "yes" eq_refl)
    as (evs & _ & _ & Hfail).
  exact Hfail.
Defined.

(** The reply "no" takes the default exit. *)
Lemma C10_explicit_no :
  let rt := Sample.runtime (inr "no") (inr (Some Sample.lobby)) in
  (_shouldMute Sample.footer Sample.compose rt Sample.message
     Sample.state_cached Sample.active).1 = Returned false.
Proof.
  intros rt.
  assert (Haff : ¬ affirmative_rule (cleanedResponse "no")).
  { intros H. apply isAffirmative_rule in H. vm_compute in H. discriminate. }
  destruct (C10_negative_branch_falls_through Sample.footer Sample.compose
              rt Sample.message Sample.state_cached Sample.active "no"
              eq_refl Haff)
    as (Hout & _).
  exact Hout.
Defined.

(* ===================================================================== *)
(** ** Normalisation of the reply                                          *)
(* ===================================================================== *)

Lemma isWhiteSpace_lowerChar (c : ascii) :
  JsString.isWhiteSpace (JsString.lowerChar c) = JsString.isWhiteSpace c.
Proof. destruct c as [[] [] [] [] [] [] [] []]; reflexivity. Qed.

Lemma lowerChar_lowerChar (c : ascii) :
  JsString.lowerChar (JsString.lowerChar c) = JsString.lowerChar c.
Proof. destruct c as [[] [] [] [] [] [] [] []]; reflexivity. Qed.

Lemma toLowerCase_toLowerCase (s : string) :
  JsString.toLowerCase (JsString.toLowerCase s) = JsString.toLowerCase s.
Proof.
  induction s as [|c r IH]; simpl; [reflexivity|].
  by rewrite lowerChar_lowerChar, IH.
Qed.

Lemma isEmpty_toLowerCase (s : string) :
  JsString.isEmpty (JsString.toLowerCase s) = JsString.isEmpty s.
Proof. by destruct s. Qed.

Lemma toLowerCase_trimStart (s : string) :
  JsString.toLowerCase (JsString.trimStart s)
  = JsString.trimStart (JsString.toLowerCase s).
Proof.
  induction s as [|c r IH]; simpl; [reflexivity|].
  rewrite isWhiteSpace_lowerChar.
  by destruct (JsString.isWhiteSpace c).
Qed.

Lemma toLowerCase_trimEnd (s : string) :
  JsString.toLowerCase (JsString.trimEnd s)
  = JsString.trimEnd (JsString.toLowerCase s).
Proof.
  induction s as [|c r IH]; simpl; [reflexivity|].
  rewrite isWhiteSpace_lowerChar, <- IH, isEmpty_toLowerCase.
  by destruct (JsString.isWhiteSpace c && JsString.isEmpty (JsString.trimEnd r)).
Qed.

Lemma toLowerCase_trim (s : string) :
  JsString.toLowerCase (JsString.trim s)
  = JsString.trim (JsString.toLowerCase s).
Proof.
  unfold JsString.trim. by rewrite toLowerCase_trimEnd, toLowerCase_trimStart.
Qed.

Lemma trimStart_blank (s : string) :
  isBlank s = true → JsString.trimStart s = "".
Proof.
  induction s as [|c r IH]; simpl; [done|].
  intros [-> Hr]%andb_true_iff. auto.
Qed.

Lemma trimEnd_blank (s : string) :
  isBlank s = true → JsString.trimEnd s = "".
Proof.
  induction s as [|c r IH]; simpl; [done|].
  intros [-> Hr]%andb_true_iff. by rewrite IH.
Qed.

Lemma trimStart_app_blank (pre s : string) :
  isBlank pre = true → JsString.trimStart (pre +:+ s) = JsString.trimStart s.
Proof.
  induction pre as [|c r IH]; simpl; [done|].
  intros [-> Hr]%andb_true_iff. auto.
Qed.

Lemma trimEnd_app_blank (s post : string) :
  isBlank post = true → JsString.trimEnd (s +:+ post) = JsString.trimEnd s.
Proof.
  intros Hpost. induction s as [|c r IH]; simpl.
  - by apply trimEnd_blank.
  - by rewrite IH.
Qed.

Lemma trim_app_blank (s post : string) :
  isBlank post = true → JsString.trim (s +:+ post) = JsString.trim s.
Proof.
  intros Hpost. unfold JsString.trim. induction s as [|c r IH]; simpl.
  - by rewrite trimStart_blank.
  - destruct (JsString.isWhiteSpace c) eqn:Hc; [exact IH|].
    change (String c (r +:+ post)) with (String c r +:+ post).
    by apply trimEnd_app_blank.
Qed.

Lemma trimEnd_trimEnd (s : string) :
  JsString.trimEnd (JsString.trimEnd s) = JsString.trimEnd s.
Proof.
  induction s as [|c r IH]; simpl; [reflexivity|].
  destruct (JsString.isWhiteSpace c && JsString.isEmpty (JsString.trimEnd r))
    eqn:E; simpl; [reflexivity|].
  by rewrite IH, E.
Qed.

Lemma trimStart_trim (s : string) :
  JsString.trimStart (JsString.trim s) = JsString.trim s.
Proof.
  unfold JsString.trim. induction s as [|c r IH]; simpl; [reflexivity|].
  destruct (JsString.isWhiteSpace c) eqn:Hc; [exact IH|].
  simpl. rewrite Hc. simpl. by rewrite Hc.
Qed.

Lemma trim_trim (s : string) :
  JsString.trim (JsString.trim s) = JsString.trim s.
Proof.
  unfold JsString.trim at 1. rewrite trimStart_trim.
  unfold JsString.trim. apply trimEnd_trimEnd.
Qed.

Lemma cleanedResponse_blank (response : string) :
  isBlank response = true → cleanedResponse response = "".
Proof.
  intros H. unfold cleanedResponse, JsString.trim.
  by rewrite trimStart_blank.
Qed.

(** X1. The two equality tests with "true" and "yes" add nothing to the
    affirmative condition, nor those with "false" and "no" to the negative
    one: a string equal to the word contains it.  The conditions are the
    substring tests, and the one-letter answers "y" and "n", which count
    only as the whole normalized reply. *)
Theorem X1_equality_tests_are_subsumed (c : string) :
  isAffirmative c
  = (String.eqb c "y" || JsString.includes "true" c || JsString.includes "yes" c)
  ∧ isNegative c
    = (String.eqb c "n" || JsString.includes "false" c
       || JsString.includes "no" c).
Proof.
  unfold isAffirmative, isNegative. split.
  - destruct (String.eqb_spec c "true") as [->|_]; [reflexivity|].
    destruct (String.eqb_spec c "yes") as [->|_]; [reflexivity|].
    simpl. reflexivity.
  - destruct (String.eqb_spec c "false") as [->|_]; [reflexivity|].
    destruct (String.eqb_spec c "no") as [->|_]; [reflexivity|].
    simpl. reflexivity.
Qed.

(** X2. White space around the reply does not count: a reply padded with
    white space on either side normalizes to the same string, so it is
    classified the same. *)
Theorem X2_surrounding_white_space_is_ignored (pre response post : string) :
  isBlank pre = true →
  isBlank post = true →
  cleanedResponse (pre +:+ response +:+ post) = cleanedResponse response.
Proof.
  intros Hpre Hpost. unfold cleanedResponse. f_equal.
  unfold JsString.trim at 1. rewrite trimStart_app_blank by done.
  by apply trim_app_blank.
Qed.

(** X3. Letter case does not count: two replies with the same lower-case
    form normalize to the same string, so they are classified the same. *)
Theorem X3_letter_case_is_ignored (response1 response2 : string) :
  JsString.toLowerCase response1 = JsString.toLowerCase response2 →
  cleanedResponse response1 = cleanedResponse response2
  ∧ isAffirmative (cleanedResponse response1)
    = isAffirmative (cleanedResponse response2)
  ∧ isNegative (cleanedResponse response1)
    = isNegative (cleanedResponse response2).
Proof.
  intros H.
  assert (E : cleanedResponse response1 = cleanedResponse response2).
  { unfold cleanedResponse. by rewrite !toLowerCase_trim, H. }
  by rewrite E.
Qed.

(** X4. Normalizing twice is normalizing once: the normalized reply is
    already trimmed and in lower case. *)
Theorem X4_normalization_is_idempotent (response : string) :
  cleanedResponse (cleanedResponse response) = cleanedResponse response.
Proof.
  unfold cleanedResponse.
  by rewrite !toLowerCase_trim, toLowerCase_toLowerCase, trim_trim.
Qed.

(* ===================================================================== *)
(** ** What every invocation keeps                                         *)
(* ===================================================================== *)

(** Split a run of the handler on a supplied state into its cases: the
    completion call rejects, or the reply is affirmative, negative or
    unclear, each with the four ways the room resolves or fails to. *)
Ltac reply_cases runtime message st :=
  destruct (rt_useModel runtime TEXT_SMALL _ []) as [e|response] eqn:Hreply;
  simpl;
  [| destruct (isAffirmative (cleanedResponse response)) eqn:Haff; simpl;
     [|destruct (isNegative (cleanedResponse response)) eqn:Hneg; simpl];
     (destruct (room (data st)) as [rm|] eqn:Hroom; simpl;
      [|destruct (rt_getRoom runtime (roomId message)) as [e|[rm|]]
          eqn:Hlookup; simpl]) ].

Ltac handler_cases runtime message state :=
  run_action;
  destruct state as [st|]; simpl; [reply_cases runtime message st|].

Ltac appended := first [list_eq | symmetry; apply app_nil_r].

Section Invariants.

Variable booleanFooter : string.
Variable composePromptFromState : State -> string -> string.
Variable v4 : UUID.
Variable Date_now : Z.

Local Abbreviation prompt_of st :=
  (composePromptFromState st (shouldMuteTemplate booleanFooter)).
Local Abbreviation run_shouldMute :=
  (_shouldMute booleanFooter composePromptFromState).
Local Abbreviation run_handler :=
  (handler booleanFooter composePromptFromState v4 Date_now).

Lemma validate_result (runtime : IAgentRuntime) (message : Memory) (w : World) :
  (validate runtime message w).1
  = Returned
      (negb (bool_decide
               (participants w !! (roomId message, rt_agentId runtime)
                = Some "MUTED"))).
Proof. reflexivity. Qed.

Lemma handler_participants (runtime : IAgentRuntime) (message : Memory)
    (state : option State) (w : World) :
  participants (run_handler runtime message state w).2
  = match state with
    | Some st =>
        match rt_useModel runtime TEXT_SMALL (prompt_of st) [] with
        | inr response =>
            if isAffirmative (cleanedResponse response)
            then <[(roomId message, rt_agentId runtime) := "MUTED"]>
                   (participants w)
            else participants w
        | inl _ => participants w
        end
    | None => participants w
    end.
Proof. handler_cases runtime message state; reflexivity. Qed.



(** X7. The memory store and the call log only grow: whatever the inputs,
    the handler keeps every earlier memory in place and appends at most
    three, each to the "messages" table and each for the room of the
    triggering message. *)
Theorem X7_memories_are_only_appended (runtime : IAgentRuntime)
    (message : Memory) (state : option State) (w : World) :
  let w' := (run_handler runtime message state w).2 in
  ∃ (new_memories : list (Memory * string)) (new_events : list Event),
    memories w' = memories w ++ new_memories
    ∧ trace w' = trace w ++ new_events
    ∧ (length new_memories ≤ 3)%nat
    ∧ Forall (λ entry, entry.2 = "messages" ∧ roomId entry.1 = roomId message)
        new_memories.
Proof.
  handler_cases runtime message state;
    eexists _, _; (split; [appended|]); (split; [appended|]);
    (split; [simpl; lia | repeat constructor]).
Qed.

(** X8. The only participant state the handler can write is MUTED for
    (message.roomId, agentId): after any invocation the participant map is
    the one before, or the one before with that pair set to MUTED.  No
    other pair is touched and no state is ever removed. *)
Theorem X8_only_the_agents_state_is_written (runtime : IAgentRuntime)
    (message : Memory) (state : option State) (w : World) :
  let w' := (run_handler runtime message state w).2 in
  participants w' = participants w
  ∨ participants w'
    = <[(roomId message, rt_agentId runtime) := "MUTED"]> (participants w).
Proof.
  cbv zeta. rewrite handler_participants.
  destruct state as [st|]; [|by left].
  destruct (rt_useModel runtime TEXT_SMALL (prompt_of st) []) as [e|response];
    [by left|].
  destruct (isAffirmative (cleanedResponse response)); [by right | by left].
Qed.

(** X9. Called on a room that is already muted, the handler leaves the
    participant map exactly as it was, whatever the reply and whatever
    fails. *)
Theorem X9_muted_stays_muted (runtime : IAgentRuntime) (message : Memory)
    (state : option State) (w : World) :
  participants w !! (roomId message, rt_agentId runtime) = Some "MUTED" →
  participants (run_handler runtime message state w).2 = participants w.
Proof.
  intros Hmuted. rewrite handler_participants.
  destruct state as [st|]; [|done].
  destruct (rt_useModel runtime TEXT_SMALL (prompt_of st) []) as [e|response];
    [done|].
  destruct (isAffirmative (cleanedResponse response)); [|done].
  by apply insert_id.
Qed.

(** X10. With a state supplied, the handler calls the completion service
    exactly once, before anything else, with the small model, the prompt
    composed from the state and the template, and no stop sequences; this
    holds whether the call succeeds or not and whatever follows. *)
Theorem X10_one_completion_call (runtime : IAgentRuntime) (message : Memory)
    (st : State) (w : World) :
  let w' := (run_handler runtime message (Some st) w).2 in
  ∃ later_events : list Event,
    trace w' = trace w ++ EUseModel TEXT_SMALL (prompt_of st) [] :: later_events
    ∧ List.filter is_useModel later_events = [].
Proof.
  run_action. reply_cases runtime message st;
    eexists; (split; [list_eq | reflexivity]).
Qed.

(** X11. The handler never reads the participant state: run on two worlds
    that differ only in their participant maps, it returns or throws the
    same, appends the same memories and makes the same calls, none of them
    getParticipantUserState.  Only [validate] stands between a muted room
    and a second round of audit records. *)
Theorem X11_handler_ignores_participant_state (runtime : IAgentRuntime)
    (message : Memory) (state : option State)
    (p1 p2 : gmap (UUID * UUID) string) (ms : list (Memory * string))
    (tr : list Event) :
  let r1 := run_handler runtime message state (mkWorld p1 ms tr) in
  let r2 := run_handler runtime message state (mkWorld p2 ms tr) in
  r1.1 = r2.1
  ∧ memories r1.2 = memories r2.2
  ∧ trace r1.2 = trace r2.2
  ∧ List.filter is_getParticipantUserState (trace r1.2)
    = List.filter is_getParticipantUserState tr.
Proof.
  handler_cases runtime message state; repeat split;
    rewrite ?List.filter_app; simpl; rewrite ?app_nil_r; reflexivity.
Qed.

(** X12. After an invocation of the handler, [validate] answers false
    exactly when the room was muted before, or a state was supplied and
    the completion service gave an affirmative reply.  A failure to
    resolve the room afterwards does not undo the mute. *)
Theorem X12_eligibility_after_the_handler (runtime : IAgentRuntime)
    (message : Memory) (state : option State) (w : World) :
  let w' := (run_handler runtime message state w).2 in
  (validate runtime message w').1 = Returned false
  ↔ participants w !! (roomId message, rt_agentId runtime) = Some "MUTED"
    ∨ ∃ (st : State) (response : string),
        state = Some st
        ∧ rt_useModel runtime TEXT_SMALL (prompt_of st) [] = inr response
        ∧ affirmative_rule (cleanedResponse response).
Proof.
  cbv zeta. rewrite validate_result, handler_participants.
  set (key := (roomId message, rt_agentId runtime)).
  split.
  - intros H. injection H as H.
    apply negb_false_iff, bool_decide_eq_true in H.
    destruct state as [st|]; [|by left].
    destruct (rt_useModel runtime TEXT_SMALL (prompt_of st) [])
      as [e|response] eqn:Hreply; [by left|].
    destruct (isAffirmative (cleanedResponse response)) eqn:Haff; [|by left].
    right. exists st, response. by rewrite <- isAffirmative_rule.
  - intros H. f_equal. apply negb_false_iff, bool_decide_eq_true.
    destruct H as [Hmuted | (st & response & -> & -> & Haff)].
    + destruct state as [st|]; [|done].
      destruct (rt_useModel runtime TEXT_SMALL (prompt_of st) [])
        as [e|response]; [done|].
      destruct (isAffirmative (cleanedResponse response)); [|done].
      apply lookup_insert_eq.
    + apply isAffirmative_rule in Haff. rewrite Haff.
      apply lookup_insert_eq.
Qed.

(** X13. The handler is not atomic: when the reply is affirmative but the
    room is neither cached in the state nor found by the lookup, the
    handler throws after the mute is committed.  The participant state is
    MUTED and the MUTE_ROOM_STARTED memory is the one memory appended. *)
Theorem X13_mute_survives_a_failed_lookup (runtime : IAgentRuntime)
    (message : Memory) (st : State) (w : World) (response : string) :
  rt_useModel runtime TEXT_SMALL (prompt_of st) [] = inr response →
  affirmative_rule (cleanedResponse response) →
  room (data st) = None →
  (∀ rm : Room, rt_getRoom runtime (roomId message) ≠ inr (Some rm)) →
  let r := run_handler runtime message (Some st) w in
  ∃ (e : Exn) (m : Memory),
    r.1 = Thrown e
    ∧ participants r.2 !! (roomId message, rt_agentId runtime) = Some "MUTED"
    ∧ actions (content m) = Some ["MUTE_ROOM_STARTED"]
    ∧ memories r.2 = memories w ++ [(m, "messages")].
Proof.
  intros Hreply Haff Hroom Hlookup. apply isAffirmative_rule in Haff.
  run_action. rewrite Hreply; simpl. rewrite Haff, Hroom; simpl.
  destruct (rt_getRoom runtime (roomId message)) as [e|[rm|]] eqn:E; simpl.
  - eexists _, _. repeat split; [apply lookup_insert_eq|].
    reflexivity.
  - by destruct (Hlookup rm).
  - eexists _, _. repeat split; [apply lookup_insert_eq|].
    reflexivity.
Qed.

(** X14. An empty reply, or one made of white space only, is unclear:
    [_shouldMute] returns false, appends no memory and logs the warning
    with the reply as received. *)
Theorem X14_blank_reply_is_unclear (runtime : IAgentRuntime) (message : Memory)
    (st : State) (w : World) (response : string) :
  rt_useModel runtime TEXT_SMALL (prompt_of st) [] = inr response →
  isBlank response = true →
  let d := run_shouldMute runtime message st w in
  d.1 = Returned false
  ∧ memories d.2 = memories w
  ∧ participants d.2 = participants w
  ∧ trace d.2 =
      trace w
      ++ [EUseModel TEXT_SMALL (prompt_of st) [];
          ELog LWarn
            ("Unclear boolean response: " +:+ response
             +:+ ", defaulting to false")].
Proof.
  intros Hreply Hblank. run_action. rewrite Hreply; simpl.
  rewrite (cleanedResponse_blank _ Hblank).
  change (isAffirmative "") with false. change (isNegative "") with false.
  simpl. repeat split. list_eq.
Qed.

(** X15. After a successful completion call the handler logs the "Unclear
    boolean response" warning, quoting the reply as received, exactly when
    the reply is not affirmative; for an affirmative reply it logs
    nothing. *)
Theorem X15_warning_iff_not_affirmative (runtime : IAgentRuntime)
    (message : Memory) (st : State) (w : World) (response : string) :
  rt_useModel runtime TEXT_SMALL (prompt_of st) [] = inr response →
  let w' := (run_handler runtime message (Some st) w).2 in
  ∃ new_events : list Event,
    trace w' = trace w ++ new_events
    ∧ List.filter is_log new_events
      = if isAffirmative (cleanedResponse response) then []
        else [ELog LWarn
                ("Unclear boolean response: " +:+ response
                 +:+ ", defaulting to false")].
Proof.
  intros Hreply. run_action. rewrite Hreply; simpl.
  destruct (isAffirmative (cleanedResponse response)) eqn:Haff; simpl;
    [|destruct (isNegative (cleanedResponse response)) eqn:Hneg; simpl];
    (destruct (room (data st)) as [rm|] eqn:Hroom; simpl;
     [|destruct (rt_getRoom runtime (roomId message)) as [e|[rm|]]
         eqn:Hlookup; simpl]);
    eexists; (split; [list_eq | reflexivity]).
Qed.

(** X16. When the handler returns normally it has appended three memories
    if the reply was affirmative or negative (the classification record,
    the closing record, the acknowledgment), and two if it was unclear. *)
Theorem X16_memories_of_a_normal_return (runtime : IAgentRuntime)
    (message : Memory) (st : State) (w : World) (response : string) :
  rt_useModel runtime TEXT_SMALL (prompt_of st) [] = inr response →
  let r := run_handler runtime message (Some st) w in
  r.1 = Returned tt →
  ∃ new_memories : list (Memory * string),
    memories r.2 = memories w ++ new_memories
    ∧ length new_memories
      = if isAffirmative (cleanedResponse response)
           || isNegative (cleanedResponse response)
        then 3 else 2.
Proof.
  intros Hreply. run_action. rewrite Hreply; simpl.
  destruct (isAffirmative (cleanedResponse response)) eqn:Haff; simpl;
    [|destruct (isNegative (cleanedResponse response)) eqn:Hneg; simpl];
    (destruct (room (data st)) as [rm|] eqn:Hroom; simpl;
     [|destruct (rt_getRoom runtime (roomId message)) as [e|[rm|]]
         eqn:Hlookup; simpl]);
    intros Hret; try discriminate Hret;
    eexists; (split; [list_eq | reflexivity]).
Qed.

End Invariants.

(** X17. The catalogue of examples agrees with the action: its name is
    among its similes, and every example conversation opens with a message
    that does not mute, holds exactly one message tagged with the action's
    name, and after it the speaker who muted only appears with empty text
    and the action IGNORE. *)
Theorem X17_examples_show_one_mute_then_silence :
  In muteRoomAction.name muteRoomAction.similes
  ∧ Forall (λ conversation, example_well_formed conversation = true)
      muteRoomAction.examples.
Proof. split; [simpl; tauto | repeat constructor]. Qed.

(* ===================================================================== *)
(** ** The further properties at sample invocations                        *)
(* ===================================================================== *)

(** "  YES " is read as "YES". *)
Lemma X2_padded_YES :
  isBlank "  " = true
  ∧ isBlank " " = true
  ∧ cleanedResponse ("  " +:+ "YES" +:+ " ") = cleanedResponse "YES".
Proof.
  split; [reflexivity|]. split; [reflexivity|].
  apply (X2_surrounding_white_space_is_ignored "  " "YES" " ");
    reflexivity.
Defined.

(** "Yes" and "YES" are read alike. *)
Lemma X3_Yes_and_YES :
  cleanedResponse "Yes" = cleanedResponse "YES".
Proof.
  destruct (X3_letter_case_is_ignored "Yes" "YES" eq_refl) as (E & _).
  exact E.
Defined.

(** The handler called on the muted room, bypassing the guard. *)
Lemma X9_handler_on_muted_room :
  participants
    (Sample.run_handler
       (Sample.runtime (inr "yes") (inr (Some Sample.lobby)))
       (Some Sample.state_cached) Sample.muted).2
  = participants Sample.muted.
Proof.
  apply (X9_muted_stays_muted Sample.footer Sample.compose Sample.uuid
           Sample.now
           (Sample.runtime (inr "yes") (inr (Some Sample.lobby)))
           Sample.message (Some Sample.state_cached) Sample.muted).
  reflexivity.
Defined.

(** The reply "yes" with an unknown room. *)
Lemma X13_yes_then_unknown_room :
  let r := Sample.run_handler (Sample.runtime (inr "yes") (inr None))
             (Some Sample.state_uncached) Sample.active in
  ∃ (e : Exn) (m : Memory),
    r.1 = Thrown e
    ∧ participants r.2 !! ("room-R", "agent-G") = Some "MUTED"
    ∧ actions (content m) = Some ["MUTE_ROOM_STARTED"]
    ∧ memories r.2 = [(m, "messages")].
Proof.
  apply (X13_mute_survives_a_failed_lookup Sample.footer Sample.compose
           Sample.uuid Sample.now (Sample.runtime (inr "yes") (inr None))
           Sample.message Sample.state_uncached Sample.active "yes").
  - reflexivity.
  - right. left. reflexivity.
  - reflexivity.
  - intros rm H. discriminate H.
Defined.

(** A reply of two spaces. *)
Lemma X14_two_spaces :
  (_shouldMute Sample.footer Sample.compose
     (Sample.runtime (inr "  ") (inr (Some Sample.lobby))) Sample.message
     Sample.state_cached Sample.active).1 = Returned false.
Proof.
  destruct (X14_blank_reply_is_unclear Sample.footer Sample.compose
              (Sample.runtime (inr "  ") (inr (Some Sample.lobby)))
              Sample.message Sample.state_cached Sample.active "  "
              eq_refl eq_refl)
    as (Hout & _).
  exact Hout.
Defined.

(** The warning after the reply "no". *)
Lemma X15_warning_after_no :
  ∃ new_events : list Event,
    trace
      (Sample.run_handler
         (Sample.runtime (inr "no") (inr (Some Sample.lobby)))
         (Some Sample.state_cached) Sample.active).2
    = [] ++ new_events
    ∧ List.filter is_log new_events
      = [ELog LWarn "Unclear boolean response: no, defaulting to false"].
Proof.
  exact (X15_warning_iff_not_affirmative Sample.footer Sample.compose
           Sample.uuid Sample.now
           (Sample.runtime (inr "no") (inr (Some Sample.lobby)))
           Sample.message Sample.state_cached Sample.active "no" eq_refl).
Defined.

(** Two memories after the reply "maybe?". *)
Lemma X16_two_memories_after_maybe :
  ∃ new_memories : list (Memory * string),
    memories
      (Sample.run_handler
         (Sample.runtime (inr "maybe?") (inr (Some Sample.lobby)))
         (Some Sample.state_cached) Sample.active).2
    = [] ++ new_memories
    ∧ length new_memories = 2.
Proof.
  exact (X16_memories_of_a_normal_return Sample.footer Sample.compose
           Sample.uuid Sample.now
           (Sample.runtime (inr "maybe?") (inr (Some Sample.lobby)))
           Sample.message Sample.state_cached Sample.active "maybe?"
           eq_refl eq_refl).
Defined.

(* ===================================================================== *)
(** ** Words of the reply and the text around them                         *)
(* ===================================================================== *)

Lemma append_cons (c : ascii) (a b : string) :
  String c a +:+ b = String c (a +:+ b).
Proof. reflexivity. Qed.

Lemma append_assoc (a b c : string) :
  (a +:+ b) +:+ c = a +:+ (b +:+ c).
Proof.
  induction a as [|x a IH]; [reflexivity|].
  by rewrite !append_cons, IH.
Qed.

Lemma toLowerCase_app (a b : string) :
  JsString.toLowerCase (a +:+ b)
  = JsString.toLowerCase a +:+ JsString.toLowerCase b.
Proof.
  induction a as [|x a IH]; [reflexivity|].
  rewrite append_cons. simpl JsString.toLowerCase.
  by rewrite append_cons, IH.
Qed.

Lemma contains_app (n s pre post : string) :
  contains n s → contains n (pre +:+ s +:+ post).
Proof.
  intros (p & q & ->). exists (pre +:+ p), (q +:+ post).
  by rewrite !append_assoc.
Qed.

Lemma contains_nonempty (n x : string) :
  n ≠ "" → contains n x → JsString.isEmpty x = false.
Proof.
  intros Hn (p & q & ->). destruct p; [|reflexivity].
  destruct n; [done | reflexivity].
Qed.

Lemma trimStart_suffix (s : string) :
  ∃ a, s = a +:+ JsString.trimStart s.
Proof.
  induction s as [|c r [a IH]]; [by exists ""|].
  simpl. destruct (JsString.isWhiteSpace c).
  - exists (String c a). by rewrite append_cons, <- IH.
  - by exists "".
Qed.

Lemma trimEnd_prefix (s : string) :
  ∃ b, s = JsString.trimEnd s +:+ b.
Proof.
  induction s as [|c r [b IH]]; [by exists ""|].
  simpl.
  destruct (JsString.isWhiteSpace c && JsString.isEmpty (JsString.trimEnd r)).
  - by exists (String c r).
  - exists b. by rewrite append_cons, <- IH.
Qed.

Lemma contains_trim_inv (n s : string) :
  contains n (JsString.trim s) → contains n s.
Proof.
  intros H. destruct (trimStart_suffix s) as [a Ha].
  destruct (trimEnd_prefix (JsString.trimStart s)) as [b Hb].
  apply (contains_app _ _ a b) in H. unfold JsString.trim in H.
  by rewrite <- Hb, <- Ha in H.
Qed.

Lemma trimEnd_app_solid (n post : string) :
  n ≠ "" → JsString.trimEnd n = n →
  ∃ post', JsString.trimEnd (n +:+ post) = n +:+ post'.
Proof.
  induction n as [|a n' IH]; [done|]. intros _ Hn. simpl in Hn.
  destruct (JsString.isWhiteSpace a && JsString.isEmpty (JsString.trimEnd n'))
    eqn:E; [discriminate|].
  injection Hn as Hn'. rewrite append_cons. simpl JsString.trimEnd.
  destruct n' as [|b n''].
  - simpl in E. rewrite andb_true_r in E.
    change ("" +:+ post) with post. rewrite E. simpl. by eexists.
  - destruct (IH ltac:(done) Hn') as [post' ->].
    rewrite append_cons. simpl. rewrite andb_false_r.
    exists post'. by rewrite !append_cons.
Qed.

Lemma contains_trimEnd (n s : string) :
  n ≠ "" → JsString.trimEnd n = n →
  contains n s → contains n (JsString.trimEnd s).
Proof.
  intros Hn Ht (pre & post & ->). induction pre as [|c pre IH].
  - change ("" +:+ n +:+ post) with (n +:+ post).
    destruct (trimEnd_app_solid n post Hn Ht) as [post' ->].
    by exists "", post'.
  - rewrite append_cons. simpl JsString.trimEnd.
    rewrite (contains_nonempty _ _ Hn IH), andb_false_r.
    destruct IH as (p & q & ->). by exists (String c p), q.
Qed.

Lemma contains_trimStart (a : ascii) (n' s : string) :
  JsString.isWhiteSpace a = false →
  contains (String a n') s → contains (String a n') (JsString.trimStart s).
Proof.
  intros Ha (pre & post & ->). induction pre as [|c pre IH].
  - change ("" +:+ String a n' +:+ post) with (String a (n' +:+ post)).
    simpl. rewrite Ha. by exists "", post.
  - rewrite append_cons. simpl.
    destruct (JsString.isWhiteSpace c); [exact IH|].
    by exists (String c pre), post.
Qed.

Lemma word_survives (a : ascii) (n' response pre post : string) :
  JsString.isWhiteSpace a = false →
  JsString.trimEnd (String a n') = String a n' →
  contains (String a n') (cleanedResponse response) →
  contains (String a n') (cleanedResponse (pre +:+ response +:+ post)).
Proof.
  intros Ha Hn. unfold cleanedResponse. rewrite !toLowerCase_trim.
  intros H%contains_trim_inv. unfold JsString.trim.
  apply contains_trimEnd; [done | done |].
  apply contains_trimStart; [done|].
  rewrite !toLowerCase_app. by apply contains_app.
Qed.

(** X18. An affirmative reply other than the bare "y" stays affirmative
    whatever text is put before and after it: the words "yes" and "true"
    are looked for anywhere in the reply. *)
Theorem X18_affirmative_in_any_context (response pre post : string) :
  isAffirmative (cleanedResponse response) = true →
  cleanedResponse response ≠ "y" →
  isAffirmative (cleanedResponse (pre +:+ response +:+ post)) = true.
Proof.
  intros Haff Hy. apply isAffirmative_rule.
  apply isAffirmative_rule in Haff.
  destruct Haff as [E | [E | [E | [H | H]]]].
  - do 3 right. left. apply word_survives; [done | done |].
    rewrite E. by exists "", "".
  - do 4 right. apply word_survives; [done | done |].
    rewrite E. by exists "", "".
  - done.
  - do 3 right. left. by apply word_survives.
  - do 4 right. by apply word_survives.
Qed.

(** X19. In the same way the negative condition, once met by a reply
    other than the bare "n", is met by every reply that contains it: the
    words "no" and "false" are looked for anywhere. *)
Theorem X19_negative_in_any_context (response pre post : string) :
  isNegative (cleanedResponse response) = true →
  cleanedResponse response ≠ "n" →
  isNegative (cleanedResponse (pre +:+ response +:+ post)) = true.
Proof.
  intros Hneg Hn. apply isNegative_rule.
  apply isNegative_rule in Hneg.
  destruct Hneg as [E | [E | [E | [H | H]]]].
  - do 3 right. left. apply word_survives; [done | done |].
    rewrite E. by exists "", "".
  - do 4 right. apply word_survives; [done | done |].
    rewrite E. by exists "", "".
  - done.
  - do 3 right. left. by apply word_survives.
  - do 4 right. by apply word_survives.
Qed.

(** "yes" inside "no, yes!". *)
Lemma X18_no_yes :
  isAffirmative (cleanedResponse ("no, " +:+ "yes" +:+ "!")) = true.
Proof.
  apply (X18_affirmative_in_any_context "yes" "no, " "!").
  - reflexivity.
  - discriminate.
Defined.

(** "No" inside "Oh. No thanks". *)
Lemma X19_no_thanks :
  isNegative (cleanedResponse ("Oh. " +:+ "No" +:+ " thanks")) = true.
Proof.
  apply (X19_negative_in_any_context "No" "Oh. " " thanks").
  - reflexivity.
  - discriminate.
Defined.
